(** * Time budgeting of the engine: a model of [timeinfo.c]

    The development embeds the functions of [timeinfo.c] as Rocq functions
    and proves the properties of the time-budget specification about them.

    Conventions of the embedding.

    - A C [int] is a [Z]; [/] on two ints is C's truncating division,
      [Z.quot].  Signed overflow is undefined behaviour in C and lies outside
      the model: the integers are unbounded.
    - A C [double] is an exact rational, [Q].  Rounding, infinities and NaN
      lie outside the model.  [!x] on a double is [Qeq_bool x 0], the
      conversion of an int to a double is [inject_Z], the cast [(int)x]
      truncates towards zero.
    - A function that contains [assert], or a division whose divisor no
      guard keeps away from zero, returns an [outcome]: either its result or
      the [fault] that stopped it, tagged with the source line.
    - The fields of the union [len] are kept side by side in the record:
      the model is exact as long as the code reads the variant it wrote
      last, which is how [timeinfo.c] uses it. *)

From Stdlib Require Import ZArith QArith Qround Qminmax Bool Ascii String.
From Stdlib Require Import Lia Lqa.
From Stdlib Require Import Decimal DecimalString DecimalNat.

Local Open Scope Z_scope.
Local Open Scope Q_scope.

(** ** Outcomes of a C function that may stop on an assertion *)

Inductive fault : Type :=
| assert_failed (line : positive)
| division_by_zero (line : positive).

Inductive outcome (A : Type) : Type :=
| Ok (a : A)
| Fault (f : fault).

Arguments Ok {A} a.
Arguments Fault {A} f.

Definition bind {A B : Type} (m : outcome A) (k : A -> outcome B) : outcome B :=
  match m with
  | Ok a => k a
  | Fault f => Fault f
  end.

Definition c_assert (line : positive) (c : bool) : outcome unit :=
  if c then Ok tt else Fault (assert_failed line).

Notation "x <- m ;; k" := (bind m (fun x => k))
  (at level 61, m at next level, right associativity).
Notation "'assert_at' l c ;; k" := (bind (c_assert l c) (fun _ => k))
  (at level 61, l at level 0, c at level 0, right associativity).

(** ** Doubles as rationals *)

Definition Qltb (x y : Q) : bool := negb (Qle_bool y x).

(** [(int)x] for a double [x]: truncation towards zero. *)
Definition Qtrunc (x : Q) : Z := Z.quot (Qnum x) (Zpos (Qden x)).

(** [x / d] for doubles, where nothing in the code keeps [d] away from 0. *)
Definition Qdiv_at (line : positive) (x d : Q) : outcome Q :=
  if Qeq_bool d 0 then Fault (division_by_zero line) else Ok (x / d).

(** [n / d] for ints, where nothing in the code keeps [d] away from 0. *)
Definition Zdiv_at (line : positive) (n d : Z) : outcome Z :=
  if Z.eqb d 0 then Fault (division_by_zero line) else Ok (Z.quot n d).

(** ** The budget record ([struct time_info]) *)

Inductive time_period : Type := TT_NULL | TT_MOVE | TT_TOTAL.
Inductive time_dimension : Type := TD_GAMES | TD_WALLTIME.

Definition time_period_eqb (p q : time_period) : bool :=
  match p, q with
  | TT_NULL, TT_NULL | TT_MOVE, TT_MOVE | TT_TOTAL, TT_TOTAL => true
  | _, _ => false
  end.

Definition time_dimension_eqb (d e : time_dimension) : bool :=
  match d, e with
  | TD_GAMES, TD_GAMES | TD_WALLTIME, TD_WALLTIME => true
  | _, _ => false
  end.

(** Modelled from the spec: the declaration of [struct time_info] is in
    [timeinfo.h], which is not among the sources.  The fields are the ones
    [timeinfo.c] reads and writes ([ti->period], [ti->dim], [ti->len.games],
    [ti->len.t.main_time], ...), which the specification lists as the
    BudgetRecord: period, dimension, games_remaining, main_time_remaining,
    byoyomi_time_per_period, byoyomi_periods_remaining, max_time_for_move,
    recommended_time_for_move and timer_start (0 when unset). *)
Record time_info : Type := mk_time_info {
  period : time_period;
  dim : time_dimension;
  games : Z;
  main_time : Q;
  byoyomi_time : Q;
  byoyomi_periods : Z;
  max_time : Q;
  recommended_time : Q;
  timer_start : Q
}.

Definition set_period (v : time_period) (ti : time_info) : time_info :=
  mk_time_info v (dim ti) (games ti) (main_time ti) (byoyomi_time ti)
    (byoyomi_periods ti) (max_time ti) (recommended_time ti) (timer_start ti).

Definition set_dim (v : time_dimension) (ti : time_info) : time_info :=
  mk_time_info (period ti) v (games ti) (main_time ti) (byoyomi_time ti)
    (byoyomi_periods ti) (max_time ti) (recommended_time ti) (timer_start ti).

Definition set_games (v : Z) (ti : time_info) : time_info :=
  mk_time_info (period ti) (dim ti) v (main_time ti) (byoyomi_time ti)
    (byoyomi_periods ti) (max_time ti) (recommended_time ti) (timer_start ti).

Definition set_main_time (v : Q) (ti : time_info) : time_info :=
  mk_time_info (period ti) (dim ti) (games ti) v (byoyomi_time ti)
    (byoyomi_periods ti) (max_time ti) (recommended_time ti) (timer_start ti).

Definition set_byoyomi_time (v : Q) (ti : time_info) : time_info :=
  mk_time_info (period ti) (dim ti) (games ti) (main_time ti) v
    (byoyomi_periods ti) (max_time ti) (recommended_time ti) (timer_start ti).

Definition set_byoyomi_periods (v : Z) (ti : time_info) : time_info :=
  mk_time_info (period ti) (dim ti) (games ti) (main_time ti) (byoyomi_time ti)
    v (max_time ti) (recommended_time ti) (timer_start ti).

Definition set_max_time (v : Q) (ti : time_info) : time_info :=
  mk_time_info (period ti) (dim ti) (games ti) (main_time ti) (byoyomi_time ti)
    (byoyomi_periods ti) v (recommended_time ti) (timer_start ti).

Definition set_recommended_time (v : Q) (ti : time_info) : time_info :=
  mk_time_info (period ti) (dim ti) (games ti) (main_time ti) (byoyomi_time ti)
    (byoyomi_periods ti) (max_time ti) v (timer_start ti).

Definition set_timer_start (v : Q) (ti : time_info) : time_info :=
  mk_time_info (period ti) (dim ti) (games ti) (main_time ti) (byoyomi_time ti)
    (byoyomi_periods ti) (max_time ti) (recommended_time ti) v.

(** ** Constants of [timeinfo.c] *)

Definition MAX_NET_LAG : Q := 2.0.
Definition RESERVED_BYOYOMI_PERCENT : Q := 15.
Definition MAX_MAIN_TIME_EXTENSION : Q := 3.0.
Definition MAX_BYOYOMI_TIME_EXTENSION : Q := 1.1.

(** ** [time_settings] (lines 47-62) *)

Definition time_settings (ti : time_info)
    (main_time' byoyomi_time' byoyomi_stones byoyomi_periods' : Z) : time_info :=
  if (0 <? byoyomi_time')%Z && (byoyomi_stones =? 0)%Z then
    set_period TT_NULL ti
  else
    let ti := set_period TT_TOTAL ti in
    let ti := set_dim TD_WALLTIME ti in
    let ti := set_main_time (inject_Z main_time') ti in
    let ti := set_byoyomi_time (inject_Z byoyomi_time') ti in
    let ti :=
      if (0 <? byoyomi_stones)%Z
      then set_byoyomi_time (byoyomi_time ti / inject_Z byoyomi_stones) ti
      else ti in
    let ti := set_byoyomi_periods byoyomi_periods' ti in
    set_timer_start 0 ti.

(** ** [time_left] (lines 67-92)

    The division of line 86 is in the branch where [stones_left] is not 0. *)

Definition time_left (ti : time_info) (time_left' stones_left : Z)
  : outcome time_info :=
  assert_at 70 (negb (time_period_eqb (period ti) TT_NULL)) ;;
  let ti := set_dim TD_WALLTIME ti in
  let '(ti, stones_left) :=
    if (0 <? byoyomi_periods ti)%Z && (0 <? stones_left)%Z
    then (set_byoyomi_periods stones_left ti, 1%Z)
    else (ti, stones_left) in
  if (stones_left =? 0)%Z then
    let ti := set_period TT_TOTAL ti in
    Ok (set_main_time (inject_Z time_left') ti)
  else
    let ti := set_period TT_MOVE ti in
    let ti := set_main_time 0 ti in
    let ti := set_byoyomi_time (inject_Z time_left' / inject_Z stones_left) ti in
    let ti := set_max_time (inject_Z time_left') ti in
    Ok (set_recommended_time (byoyomi_time ti) ti).

(** ** [time_in_byoyomi] (lines 97-107) *)

Definition time_in_byoyomi (ti : time_info) : outcome bool :=
  assert_at 99 (time_dimension_eqb (dim ti) TD_WALLTIME
                && time_period_eqb (period ti) TT_MOVE) ;;
  if Qeq_bool (byoyomi_time ti) 0 then Ok false
  else if Qeq_bool (main_time ti) 0 then Ok true
  else if Qle_bool (main_time ti) (byoyomi_time ti + 0.001) then Ok true
  else Ok false.

(** ** [time_start_timer] (lines 111-116)

    [now] is the value [time_now()] returns at the call. *)

Definition time_start_timer (now : Q) (ti : time_info) : time_info :=
  if negb (time_period_eqb (period ti) TT_NULL)
     && time_dimension_eqb (dim ti) TD_WALLTIME
  then set_timer_start now ti
  else ti.

(** ** C strings and the library functions [isdigit], [atoi], [atof]

    A C string is a [string]; [s[0]] of the empty string is the
    terminating NUL, and [s++] drops the first character.  [atoi] and
    [atof] follow the C standard in the "C" locale: leading white space, an
    optional sign, then the longest prefix that is a number; the value is 0
    when there is none.  [atof] reads decimal and hexadecimal floating
    constants; the spellings of infinity and NaN have no rational value
    and read as 0 here ([time_parse] only calls [atof] on text that
    starts with a digit). *)

Definition first_char (s : string) : ascii :=
  match s with
  | EmptyString => Ascii.zero
  | String c _ => c
  end.

Definition str_next (s : string) : string :=
  match s with
  | EmptyString => EmptyString
  | String _ r => r
  end.

Definition char_in (lo hi : N) (c : ascii) : bool :=
  (lo <=? N_of_ascii c)%N && (N_of_ascii c <=? hi)%N.

Definition isdigit (c : ascii) : bool := char_in 48 57 c.

Definition isspace (c : ascii) : bool :=
  (N_of_ascii c =? 32)%N || char_in 9 13 c.

Definition dec_digit (c : ascii) : option Z :=
  if isdigit c then Some (Z.of_N (N_of_ascii c) - 48)%Z else None.

Definition hex_digit (c : ascii) : option Z :=
  if isdigit c then Some (Z.of_N (N_of_ascii c) - 48)%Z
  else if char_in 65 70 c then Some (Z.of_N (N_of_ascii c) - 55)%Z
  else if char_in 97 102 c then Some (Z.of_N (N_of_ascii c) - 87)%Z
  else None.

Fixpoint skip_space (s : string) : string :=
  match s with
  | String c r => if isspace c then skip_space r else s
  | EmptyString => s
  end.

(** The optional sign: [true] for a minus. *)
Definition scan_sign (s : string) : bool * string :=
  match s with
  | String c r =>
      if Ascii.eqb c "-" then (true, r)
      else if Ascii.eqb c "+" then (false, r)
      else (false, s)
  | EmptyString => (false, s)
  end.

(** The longest run of digits: the value read (continuing [acc]), how many
    digits it has, and the text after it. *)
Fixpoint scan_digits (dig : ascii -> option Z) (base acc n : Z) (s : string)
  : Z * Z * string :=
  match s with
  | String c r =>
      match dig c with
      | Some d => scan_digits dig base (base * acc + d)%Z (n + 1)%Z r
      | None => (acc, n, s)
      end
  | EmptyString => (acc, n, s)
  end.

Definition atoi (s : string) : Z :=
  let '(neg, s) := scan_sign (skip_space s) in
  let '(v, _, _) := scan_digits dec_digit 10 0 0 s in
  if neg then (- v)%Z else v.

(** Digits, an optional point, digits: the digits read as one integer, how
    many digits there are, how many of them follow the point, and the text
    after them. *)
Definition scan_mantissa (dig : ascii -> option Z) (base : Z) (s : string)
  : Z * Z * Z * string :=
  let '(v, n, r) := scan_digits dig base 0 0 s in
  match r with
  | String c r' =>
      if Ascii.eqb c "." then
        let '(v', m, r'') := scan_digits dig base v 0 r' in
        (v', (n + m)%Z, m, r'')
      else (v, n, 0%Z, r)
  | EmptyString => (v, n, 0%Z, r)
  end.

(** The optional exponent part, introduced by [lo] or [up]; it counts only
    when at least one digit follows. *)
Definition scan_exponent (lo up : ascii) (s : string) : Z :=
  match s with
  | String c r =>
      if Ascii.eqb c lo || Ascii.eqb c up then
        let '(neg, r') := scan_sign r in
        let '(v, n, _) := scan_digits dec_digit 10 0 0 r' in
        if (n =? 0)%Z then 0%Z else if neg then (- v)%Z else v
      else 0%Z
  | EmptyString => 0%Z
  end.

Definition scan_decimal (s : string) : Q :=
  let '(v, n, f, r) := scan_mantissa dec_digit 10 s in
  if (n =? 0)%Z then 0
  else inject_Z v * 10 ^ (scan_exponent "e" "E" r - f).

Definition scan_hexadecimal (s : string) : option Q :=
  match s with
  | String z (String x r) =>
      if Ascii.eqb z "0" && (Ascii.eqb x "x" || Ascii.eqb x "X") then
        let '(v, n, f, r') := scan_mantissa hex_digit 16 r in
        if (n =? 0)%Z then None
        else Some (inject_Z v * 2 ^ (scan_exponent "p" "P" r' - 4 * f))
      else None
  | _ => None
  end.

Definition atof (s : string) : Q :=
  let '(neg, s) := scan_sign (skip_space s) in
  let m := match scan_hexadecimal s with
           | Some q => q
           | None => scan_decimal s
           end in
  if neg then - m else m.

(** ** [time_parse] (lines 21-44)

    The function writes into [*ti] and returns a flag; the model returns
    the flag and the record as the call leaves it. *)

Definition time_parse (ti : time_info) (s : string) : bool * time_info :=
  let '(ti, s) :=
    if Ascii.eqb (first_char s) "_"
    then (set_period TT_TOTAL ti, str_next s)
    else (set_period TT_MOVE ti, s) in
  if Ascii.eqb (first_char s) "=" then
    let ti := set_dim TD_GAMES ti in
    (true, set_games (atoi (str_next s)) ti)
  else if negb (isdigit (first_char s)) then
    (false, ti)
  else
    let ti := set_dim TD_WALLTIME ti in
    let ti := set_main_time (atof s) ti in
    let ti := set_byoyomi_time 0 ti in
    let ti := set_byoyomi_periods 0 ti in
    (true, set_timer_start 0 ti).

(** ** The board and the thresholds *)

(** Modelled from the spec: [struct board] and its accessors are declared
    in [board.h], which is not among the sources.  [timeinfo.c] reads the
    board through [board_size(b)], [b->moves] and
    [board_estimated_moves_left(b)] only; the specification names them the
    three read-only accessors board_linear_size, current_move_number and
    estimated_moves_left, each a count.  The record holds what each of them
    returns during one call. *)
Record board : Type := mk_board {
  board_size : Z;
  moves : Z;
  board_estimated_moves_left : Z
}.

(** Modelled from the spec: [struct time_stop] is declared in [timeinfo.h].
    Each of [stop->desired] and [stop->worst] is a playout count
    ([.playouts]) or an absolute deadline ([.time]). *)
Inductive threshold : Type :=
| playouts (n : Z)
| time (t : Q).

Record time_stop : Type := mk_time_stop {
  desired : threshold;
  worst : threshold
}.

(** ** [time_stop_conditions] (lines 140-279) *)

Section StopConditions.

(** [MIN_MOVES_LEFT] is a constant of [board.h]. *)
Variable MIN_MOVES_LEFT : Z.

(** Lines 170-176: make sure the timer runs, accrue the lag. *)
Definition timer_setup (now : Q) (ti : time_info) (net_lag : Q)
  : time_info * Q :=
  if Qeq_bool (timer_start ti) 0
  then (set_timer_start now ti, net_lag)
  else (ti, net_lag + (now - timer_start ti)).

(** Lines 179-181. *)
Definition initial_recommendations (ti : time_info) : time_info :=
  if Qeq_bool (main_time ti) 0 then ti
  else
    let ti := set_recommended_time (main_time ti) ti in
    set_max_time (recommended_time ti) ti.

(** Lines 185-209: the byoyomi periods added to the main time, and the
    number of moves to spread it over. *)
Definition main_moves_left (ti : time_info) (b : board) (net_lag : Q)
  : time_info * Z :=
  let moves_left := board_estimated_moves_left b in
  if Qltb 0 (byoyomi_time ti) then
    let ti :=
      if (2 <? byoyomi_periods ti)%Z
      then set_max_time
             (max_time ti + inject_Z (byoyomi_periods ti - 2) * byoyomi_time ti) ti
      else ti in
    let ti := set_max_time (max_time ti + byoyomi_time ti) ti in
    let ti := set_recommended_time (max_time ti) ti in
    let actual_byoyomi := byoyomi_time ti - net_lag in
    if Qltb 0 actual_byoyomi then
      let main_moves := Qtrunc (max_time ti / actual_byoyomi) in
      let moves_left :=
        if (main_moves <? moves_left)%Z then main_moves else moves_left in
      let moves_left :=
        if (moves_left <=? 0)%Z then 1%Z else moves_left in
      (ti, moves_left)
    else (ti, moves_left)
  else (ti, moves_left).

(** Lines 183-212. *)
Definition total_to_move (ti : time_info) (b : board) (net_lag : Q)
  : outcome time_info :=
  if time_period_eqb (period ti) TT_TOTAL then
    let '(ti, moves_left) := main_moves_left ti b net_lag in
    let ti := set_period TT_MOVE ti in
    r <- Qdiv_at 211 (recommended_time ti) (inject_Z moves_left) ;;
    Ok (set_recommended_time r ti)
  else Ok ti.

(** Lines 213-218. *)
Definition clamp_times (ti : time_info) : outcome time_info :=
  let ti :=
    if Qltb (recommended_time ti) 0 then set_recommended_time 0 ti else ti in
  let ti := if Qltb (max_time ti) 0 then set_max_time 0 ti else ti in
  assert_at 218 (Qle_bool (recommended_time ti) (max_time ti + 0.001)) ;;
  Ok ti.

(** Lines 220-224. *)
Definition safe_net_lag (ti : time_info) (net_lag : Q) : Q :=
  let safe_margin := RESERVED_BYOYOMI_PERCENT * byoyomi_time ti / 100 in
  if Qltb MAX_NET_LAG safe_margin
     && Qle_bool (max_time ti - net_lag) (recommended_time ti)
  then safe_margin
  else net_lag.

(** Lines 244-255: the number of moves left at the start of yose, which
    line 256 divides by. *)
Definition left_at_yose_start (b : board) (yose_start : Z) : Z :=
  let bsize := ((board_size b - 2) * (board_size b - 2))%Z in
  let yose_start := Z.quot (yose_start * bsize) 100 in
  let moves_to_yose := Z.quot (yose_start - moves b) 2 in
  let left_at_yose_start :=
    (board_estimated_moves_left b - moves_to_yose)%Z in
  if (left_at_yose_start <? MIN_MOVES_LEFT)%Z
  then MIN_MOVES_LEFT else left_at_yose_start.

(** Lines 244-266: the desired time in main time, from the phase of the
    game. *)
Definition main_time_desired (ti : time_info) (b : board)
    (fuseki_end yose_start : Z) (desired_time : Q) : outcome Q :=
  let bsize := ((board_size b - 2) * (board_size b - 2))%Z in
  let fuseki_end := Z.quot (fuseki_end * bsize) 100 in
  let yose_start := Z.quot (yose_start * bsize) 100 in
  assert_at 247 ((fuseki_end <? yose_start)%Z) ;;
  if (moves b <? yose_start)%Z then
    let moves_to_yose := Z.quot (yose_start - moves b) 2 in
    let left_at_yose_start :=
      (board_estimated_moves_left b - moves_to_yose)%Z in
    let left_at_yose_start :=
      if (left_at_yose_start <? MIN_MOVES_LEFT)%Z
      then MIN_MOVES_LEFT else left_at_yose_start in
    longest_time <- Qdiv_at 256 (max_time ti) (inject_Z left_at_yose_start) ;;
    if Qltb longest_time desired_time then
      Ok desired_time
    else if (moves b <? fuseki_end)%Z then
      assert_at 260 ((0 <? fuseki_end)%Z) ;;
      Ok (desired_time
          + ((longest_time - desired_time) * inject_Z (moves b))
            / inject_Z fuseki_end)
    else
      assert_at 262 ((moves b <? yose_start)%Z) ;;
      Ok longest_time
  else Ok desired_time.

(** Lines 236-271: the desired and the worst duration, before the lag is
    taken off. *)
Definition time_limits (ti : time_info) (b : board)
    (fuseki_end yose_start : Z) : outcome (Q * Q) :=
  let desired_time := recommended_time ti in
  in_byoyomi <- time_in_byoyomi ti ;;
  dw <- (if in_byoyomi : bool then
           let worst_time := desired_time * MAX_BYOYOMI_TIME_EXTENSION in
           let desired_time :=
             desired_time * (2 - MAX_BYOYOMI_TIME_EXTENSION) in
           Ok (desired_time, worst_time)
         else
           desired_time <-
             main_time_desired ti b fuseki_end yose_start desired_time ;;
           Ok (desired_time, desired_time * MAX_MAIN_TIME_EXTENSION)) ;;
  let '(desired_time, worst_time) := dw in
  let worst_time :=
    if Qltb (max_time ti) worst_time then max_time ti else worst_time in
  let desired_time :=
    if Qltb worst_time desired_time then worst_time else desired_time in
  Ok (desired_time, worst_time).

(** Lines 163-234: the record turned into a per-move one, and the lag. *)
Definition time_per_move (now : Q) (ti : time_info) (b : board)
  : outcome (time_info * Q) :=
  assert_at 163 (time_dimension_eqb (dim ti) TD_WALLTIME) ;;
  let '(ti, net_lag) := timer_setup now ti MAX_NET_LAG in
  let ti := initial_recommendations ti in
  ti <- total_to_move ti b net_lag ;;
  ti <- clamp_times ti ;;
  let net_lag := safe_net_lag ti net_lag in
  assert_at 234 (time_period_eqb (period ti) TT_MOVE) ;;
  Ok (ti, net_lag).

(** Lines 150-161. *)
Definition games_per_move (ti : time_info) (b : board) : outcome time_info :=
  if time_period_eqb (period ti) TT_TOTAL then
    let ti := set_period TT_MOVE ti in
    g <- Zdiv_at 153 (games ti) (board_estimated_moves_left b) ;;
    Ok (set_games g ti)
  else Ok ti.

(** The whole function.  [now] is the value [time_now()] returns at line
    170.  The result is the record as the call leaves it and the
    thresholds written to [*stop]. *)
Definition time_stop_conditions (now : Q) (ti : time_info) (b : board)
    (fuseki_end yose_start : Z) : outcome (time_info * time_stop) :=
  assert_at 144 (negb (time_period_eqb (period ti) TT_NULL)) ;;
  if time_dimension_eqb (dim ti) TD_GAMES then
    ti <- games_per_move ti b ;;
    Ok (ti, mk_time_stop (playouts (games ti)) (playouts (games ti)))
  else
    tl <- time_per_move now ti b ;;
    let '(ti, net_lag) := tl in
    dw <- time_limits ti b fuseki_end yose_start ;;
    let '(desired_time, worst_time) := dw in
    Ok (ti, mk_time_stop
              (time (timer_start ti + desired_time - net_lag))
              (time (timer_start ti + worst_time - net_lag))).

End StopConditions.

(** ** The clock: [time_now] (lines 119-125), [time_sleep] (lines 128-136)

    [clock_gettime] and [nanosleep] are system calls.  [time_now] is a
    function of the [struct timespec] that [clock_gettime] fills in.
    [time_sleep] builds a [struct timespec] and hands it to [nanosleep],
    which by POSIX fails at once with [EINVAL], without sleeping, when
    [tv_sec] is negative or [tv_nsec] is not in the range 0 to 999999999;
    the error is ignored.  The model of [time_sleep] returns the time it
    asks [nanosleep] to sleep for, or [None] when [nanosleep] refuses. *)

Record timespec : Type := mk_timespec {
  tv_sec : Z;
  tv_nsec : Z
}.


(** [modf(x, &iptr)]: the fractional part, and the integral part stored
    through the pointer; both have the sign of [x]. *)
Definition modf (x : Q) : Q * Q :=
  (x - inject_Z (Qtrunc x), inject_Z (Qtrunc x)).

Definition nanosleep_accepts (ts : timespec) : bool :=
  (0 <=? tv_sec ts)%Z && (0 <=? tv_nsec ts)%Z && (tv_nsec ts <=? 999999999)%Z.

Definition time_sleep (interval : Q) : option timespec :=
  let '(frac, sec) := modf interval in
  let ts_nsec := Qtrunc (frac * 1000000000.0) in
  let ts_sec := Qtrunc sec in
  let ts := mk_timespec ts_sec ts_nsec in
  if nanosleep_accepts ts then Some ts else None.

(** ** [random.c]: the Park-Miller generator

    [pmseed] is a thread-local [unsigned long]; the functions take its
    value and return the new one.  [unsigned long] has [ulong_bits] bits
    (32 or 64 on the usual platforms) and its arithmetic wraps around,
    which [ulong] writes out.  [max] is an [unsigned int], converted to
    [unsigned long] in the product. *)

Section Random.

Variable ulong_bits : Z.

Definition ulong (x : Z) : Z := x mod 2 ^ ulong_bits.

(** [fast_srandom]: the new value of [pmseed]. *)
Definition fast_srandom (pmseed seed_ : Z) : Z := ulong seed_.

(** The new value of [pmseed] in [fast_random] (lines 20-24). *)
Definition pmseed_next (pmseed : Z) : Z :=
  let lo := ulong (16807 * Z.land pmseed 0xffff) in
  let hi := ulong (16807 * Z.shiftr pmseed 16) in
  let lo := ulong (lo + ulong (Z.shiftl (Z.land hi 0x7fff) 16)) in
  let lo := ulong (lo + Z.shiftr hi 15) in
  ulong (Z.land lo 0x7fffffff + Z.shiftr lo 31).

(** [fast_random]: the number returned and the new value of [pmseed]. *)
Definition fast_random (pmseed : Z) (max : Z) : Z * Z :=
  let pmseed := pmseed_next pmseed in
  (Z.shiftr (ulong (Z.land pmseed 0xffff * max)) 16, pmseed).

(** [pmseed] after [n] calls of [fast_random]. *)
Fixpoint pmseed_after (n : nat) (pmseed : Z) : Z :=
  match n with
  | O => pmseed
  | S n => pmseed_after n (pmseed_next pmseed)
  end.

End Random.

(** The initial value of [pmseed] (line 8). *)
Definition pmseed_initial : Z := 29264.

(** The modulus of the Park-Miller generator, the prime 2^31 - 1. *)
Definition pm_modulus : Z := 2147483647.

(** ** Notions used to state the properties *)






(** ** The specification's reading of two steps

    These definitions follow the words of the specification, to be compared
    with the functions above. *)

(** One or more decimal digits and nothing else. *)
Fixpoint spec_digits (s : string) : bool :=
  match s with
  | EmptyString => false
  | String c EmptyString => isdigit c
  | String c r => isdigit c && spec_digits r
  end.

(** "An integer": an optional sign and digits. *)
Definition spec_integer (s : string) : bool :=
  spec_digits (snd (scan_sign s)).

(** The text before and after the first point, if there is one. *)
Fixpoint split_point (s : string) : string * option string :=
  match s with
  | EmptyString => (EmptyString, None)
  | String c r =>
      if Ascii.eqb c "." then (EmptyString, Some r)
      else let '(a, b) := split_point r in (String c a, b)
  end.

(** "A decimal number": digits, possibly followed by a point and digits. *)
Definition spec_decimal (s : string) : bool :=
  match split_point s with
  | (a, None) => spec_digits a
  | (a, Some b) => spec_digits a && spec_digits b
  end.

(** The remaining text the specification's grammar accepts. *)
Definition spec_budget_text (rest : string) : bool :=
  if Ascii.eqb (first_char rest) "=" then spec_integer (str_next rest)
  else spec_decimal rest.



(** ** Records used in the examples *)

Definition ti_blank : time_info :=
  mk_time_info TT_NULL TD_GAMES 0 0 0 0 0 0 0.

(** After [time_settings(ti, 300, 30, 1, 0)]. *)
Definition ti_canadian : time_info :=
  mk_time_info TT_TOTAL TD_WALLTIME 0 300 30 0 0 0 0.

(** In the last byoyomi period of 30 seconds, timer started at 98. *)
Definition ti_overtime : time_info :=
  mk_time_info TT_MOVE TD_WALLTIME 0 0 30 1 30 30 98.


Definition board19 (moves' left : Z) : board := mk_board 21 moves' left.

(** * Properties *)

(** ** The example records are reachable

    Each is what the entry points leave after some calls. *)

Example ti_canadian_reached :
  time_settings ti_blank 300 30 1 0 = ti_canadian.
Proof. reflexivity. Qed.

Example ti_overtime_reached :
  exists ti,
    time_left (time_settings ti_blank 0 30 1 1) 30 1 = Ok ti /\
    time_start_timer 98 ti = ti_overtime.
Proof. eexists. split; reflexivity. Qed.

(** ** Comparisons of rationals *)

Lemma Qltb_lt (x y : Q) : Qltb x y = true <-> x < y.
Proof.
  unfold Qltb. rewrite negb_true_iff. split; intro H.
  - apply Qnot_le_lt. intro Hle. apply Qle_bool_iff in Hle. congruence.
  - destruct (Qle_bool y x) eqn:E; trivial.
    apply Qle_bool_iff in E. apply Qle_not_lt in E. contradiction.
Qed.

Lemma Qltb_ge (x y : Q) : Qltb x y = false <-> y <= x.
Proof.
  unfold Qltb. rewrite negb_false_iff. apply Qle_bool_iff.
Qed.

Lemma Qle_bool_gt (x y : Q) : Qle_bool x y = false <-> y < x.
Proof.
  rewrite <- Qltb_lt. unfold Qltb. now rewrite negb_true_iff.
Qed.

Lemma Qeq_bool_ne (x y : Q) : Qeq_bool x y = false <-> ~ x == y.
Proof.
  split.
  - apply Qeq_bool_neq.
  - intro H. destruct (Qeq_bool x y) eqn:E; trivial.
    apply Qeq_bool_iff in E. contradiction.
Qed.

Lemma time_period_eqb_eq (p q : time_period) :
  time_period_eqb p q = true <-> p = q.
Proof. destruct p, q; simpl; split; congruence. Qed.

Lemma time_dimension_eqb_eq (d e : time_dimension) :
  time_dimension_eqb d e = true <-> d = e.
Proof. destruct d, e; simpl; split; congruence. Qed.

(** ** The byoyomi predicate *)

(** C6.  Under its precondition (wall-clock dimension, per-move period)
    [time_in_byoyomi] returns false when the byoyomi time is 0; otherwise
    true when the main time is 0; otherwise true when the main time is at
    most the byoyomi time plus 0.001; and false in every other case. *)
Theorem time_in_byoyomi_cases (ti : time_info) :
  dim ti = TD_WALLTIME -> period ti = TT_MOVE ->
  (byoyomi_time ti == 0 -> time_in_byoyomi ti = Ok false) /\
  (~ byoyomi_time ti == 0 -> main_time ti == 0 ->
   time_in_byoyomi ti = Ok true) /\
  (~ byoyomi_time ti == 0 -> ~ main_time ti == 0 ->
   main_time ti <= byoyomi_time ti + 0.001 ->
   time_in_byoyomi ti = Ok true) /\
  (~ byoyomi_time ti == 0 -> ~ main_time ti == 0 ->
   ~ main_time ti <= byoyomi_time ti + 0.001 ->
   time_in_byoyomi ti = Ok false).
Proof.
  intros Hd Hp. unfold time_in_byoyomi. rewrite Hd, Hp. simpl.
  repeat split.
  - intro Hb. apply Qeq_bool_iff in Hb. now rewrite Hb.
  - intros Hb Hm. apply Qeq_bool_ne in Hb. apply Qeq_bool_iff in Hm.
    now rewrite Hb, Hm.
  - intros Hb Hm Hle. apply Qeq_bool_ne in Hb, Hm.
    apply Qle_bool_iff in Hle. now rewrite Hb, Hm, Hle.
  - intros Hb Hm Hgt. apply Qeq_bool_ne in Hb, Hm.
    rewrite Hb, Hm.
    destruct (Qle_bool (main_time ti) (byoyomi_time ti + 0.001)) eqn:E;
      trivial.
    apply Qle_bool_iff in E. contradiction.
Qed.

(** With 31 seconds of main time and a byoyomi of 30 the answer is no. *)
Lemma time_in_byoyomi_cases_witness :
  time_in_byoyomi (mk_time_info TT_MOVE TD_WALLTIME 0 31 30 0 0 0 0)
  = Ok false.
Proof.
  destruct (time_in_byoyomi_cases
              (mk_time_info TT_MOVE TD_WALLTIME 0 31 30 0 0 0 0)
              eq_refl eq_refl) as (_ & _ & _ & H).
  apply H; simpl; lra.
Defined.

Example time_in_byoyomi_just_below :
  time_in_byoyomi (mk_time_info TT_MOVE TD_WALLTIME 0 29.9995 30 0 0 0 0)
  = Ok true.
Proof. reflexivity. Qed.

Example time_in_byoyomi_no_byoyomi :
  time_in_byoyomi (mk_time_info TT_MOVE TD_WALLTIME 0 0 0 0 0 0 0)
  = Ok false.
Proof. reflexivity. Qed.

Example time_in_byoyomi_no_main_time :
  time_in_byoyomi (mk_time_info TT_MOVE TD_WALLTIME 0 0 30 0 0 0 0)
  = Ok true.
Proof. reflexivity. Qed.

(** ** The timer *)

(** C10.  [time_start_timer] writes [timer_start] and nothing else, and
    only when the period is not [TT_NULL] and the dimension is
    [TD_WALLTIME]; with period [TT_NULL] or dimension [TD_GAMES] the record
    is left as it was. *)
Theorem time_start_timer_frame (now : Q) (ti : time_info) :
  (period ti <> TT_NULL /\ dim ti = TD_WALLTIME ->
   time_start_timer now ti = set_timer_start now ti) /\
  (period ti = TT_NULL \/ dim ti = TD_GAMES ->
   time_start_timer now ti = ti) /\
  set_timer_start (timer_start ti) (time_start_timer now ti) = ti.
Proof.
  unfold time_start_timer.
  destruct ti as [p d g m bt bp mx r ts]; simpl.
  destruct p, d; simpl; repeat split;
    try reflexivity; intros; intuition congruence.
Qed.

Lemma time_start_timer_frame_witness :
  time_start_timer 100 ti_canadian = set_timer_start 100 ti_canadian /\
  time_start_timer 100 ti_blank = ti_blank.
Proof.
  split.
  - destruct (time_start_timer_frame 100 ti_canadian) as (H & _ & _).
    apply H. split; [discriminate | reflexivity].
  - destruct (time_start_timer_frame 100 ti_blank) as (_ & H & _).
    apply H. left. reflexivity.
Defined.

(** ** Settings from the controller *)

(** C8.  [time_settings]: when [byoyomi_time > 0] and
    [byoyomi_stones = 0] the period becomes [TT_NULL] and nothing else
    changes; otherwise the period is [TT_TOTAL], the dimension
    [TD_WALLTIME], the main time is [main_time], the byoyomi time is
    [byoyomi_time / byoyomi_stones] when [byoyomi_stones > 0] and
    [byoyomi_time] itself when [byoyomi_stones = 0], the periods are
    [byoyomi_periods] and the timer is reset to 0.  The arguments need not
    even be non-negative. *)
Theorem time_settings_spec (ti : time_info) (mt bt bs bp : Z) :
  ((0 < bt)%Z /\ bs = 0%Z ->
   time_settings ti mt bt bs bp = set_period TT_NULL ti) /\
  (~ ((0 < bt)%Z /\ bs = 0%Z) ->
   period (time_settings ti mt bt bs bp) = TT_TOTAL /\
   dim (time_settings ti mt bt bs bp) = TD_WALLTIME /\
   main_time (time_settings ti mt bt bs bp) = inject_Z mt /\
   ((0 < bs)%Z ->
    byoyomi_time (time_settings ti mt bt bs bp)
    = inject_Z bt / inject_Z bs) /\
   (bs = 0%Z ->
    byoyomi_time (time_settings ti mt bt bs bp) = inject_Z bt) /\
   byoyomi_periods (time_settings ti mt bt bs bp) = bp /\
   timer_start (time_settings ti mt bt bs bp) = 0).
Proof.
  unfold time_settings. split.
  - intros [Hbt Hbs]. subst bs.
    apply Z.ltb_lt in Hbt. now rewrite Hbt.
  - intro Hn.
    assert (E : (0 <? bt)%Z && (bs =? 0)%Z = false).
    { apply andb_false_iff.
      destruct (Z.ltb_spec 0 bt); [right | now left].
      apply Z.eqb_neq. intro. apply Hn. now split. }
    rewrite E.
    destruct (Z.ltb_spec 0 bs) as [Hpos | Hle]; simpl;
      repeat split; trivial; intros; lia.
Qed.

Lemma time_settings_spec_witness :
  time_settings ti_blank 0 30 0 5 = set_period TT_NULL ti_blank /\
  period (time_settings ti_blank 300 30 1 5) = TT_TOTAL /\
  dim (time_settings ti_blank 300 30 1 5) = TD_WALLTIME /\
  main_time (time_settings ti_blank 300 30 1 5) = 300 /\
  byoyomi_time (time_settings ti_blank 300 30 1 5) = 30 / 1.
Proof.
  split.
  - destruct (time_settings_spec ti_blank 0 30 0 5) as [H _].
    apply H. split; [lia | reflexivity].
  - destruct (time_settings_spec ti_blank 300 30 1 5) as [_ H].
    assert (Hn : ~ ((0 < 30)%Z /\ 1%Z = 0%Z)) by lia.
    destruct (H Hn) as (Hp & Hd & Hm & Hb & _).
    split; [exact Hp |]. split; [exact Hd |]. split; [exact Hm |].
    apply Hb. lia.
Defined.

(** ** Remaining time from the controller *)

(** C1, as amended.  When the period is not [TT_NULL], [stones_left > 0]
    and the record has no byoyomi periods, [time_left] returns with period
    [TT_MOVE], main time 0, byoyomi time [time_left / stones_left],
    [max_time] equal to the reported time and [recommended_time] equal to
    the new byoyomi time, [time_left / stones_left]. *)
Theorem time_left_byoyomi_branch (ti : time_info) (t stones : Z) :
  period ti <> TT_NULL -> (0 < stones)%Z -> byoyomi_periods ti = 0%Z ->
  exists ti',
    time_left ti t stones = Ok ti' /\
    period ti' = TT_MOVE /\
    dim ti' = TD_WALLTIME /\
    main_time ti' = 0 /\
    byoyomi_time ti' = inject_Z t / inject_Z stones /\
    max_time ti' = inject_Z t /\
    recommended_time ti' = inject_Z t / inject_Z stones.
Proof.
  intros Hp Hs Hb. unfold time_left.
  assert (E : time_period_eqb (period ti) TT_NULL = false).
  { destruct (period ti); simpl; congruence. }
  rewrite E. simpl. rewrite Hb. simpl.
  destruct (Z.eqb_spec stones 0) as [-> | _]; [lia |].
  eexists. split; [reflexivity |]. simpl. repeat split.
Qed.

Lemma time_left_byoyomi_branch_witness :
  exists ti',
    time_left ti_canadian 90 3 = Ok ti' /\
    period ti' = TT_MOVE /\
    dim ti' = TD_WALLTIME /\
    main_time ti' = 0 /\
    byoyomi_time ti' = 90 / 3 /\
    max_time ti' = 90 /\
    recommended_time ti' = 90 / 3.
Proof.
  apply (time_left_byoyomi_branch ti_canadian 90 3);
    [discriminate | lia | reflexivity].
Defined.

(** C1, as it was stated, fails: with 90 seconds for 3 stones and no
    byoyomi periods, [max_time] is the reported 90 seconds but
    [recommended_time] is 30 seconds, not 90. *)
Lemma time_left_recommended_counterexample :
  period ti_canadian <> TT_NULL /\
  (0 < 3)%Z /\
  byoyomi_periods ti_canadian = 0%Z /\
  exists ti',
    time_left ti_canadian 90 3 = Ok ti' /\
    max_time ti' == 90 /\
    recommended_time ti' == 30 /\
    ~ recommended_time ti' == 90.
Proof.
  split; [discriminate |]. split; [lia |]. split; [reflexivity |].
  eexists. split; [reflexivity |]. simpl.
  split; [reflexivity |]. split; [reflexivity |].
  intro H. vm_compute in H. discriminate.
Qed.

Example time_left_main_time :
  time_left ti_canadian 60 0
  = Ok (mk_time_info TT_TOTAL TD_WALLTIME 0 60 30 0 0 0 0).
Proof. reflexivity. Qed.

(** ** Stop conditions by number of playouts *)

(** C7.  In the games dimension with a whole-game budget, and an estimate
    of the moves left that is not 0, [time_stop_conditions] replaces
    [games] by its truncated quotient by the estimate, makes the period
    [TT_MOVE], and sets both thresholds to the new [games]. *)
Theorem games_total_per_move (MIN_MOVES_LEFT : Z) (now : Q)
    (ti : time_info) (b : board) (fuseki_end yose_start : Z) :
  dim ti = TD_GAMES -> period ti = TT_TOTAL ->
  board_estimated_moves_left b <> 0%Z ->
  exists ti' stop,
    time_stop_conditions MIN_MOVES_LEFT now ti b fuseki_end yose_start
    = Ok (ti', stop) /\
    games ti' = Z.quot (games ti) (board_estimated_moves_left b) /\
    period ti' = TT_MOVE /\
    ti' = set_games (games ti') (set_period TT_MOVE ti) /\
    desired stop = playouts (games ti') /\
    worst stop = playouts (games ti').
Proof.
  intros Hd Hp He.
  unfold time_stop_conditions, games_per_move, Zdiv_at.
  rewrite Hd, Hp. simpl.
  apply Z.eqb_neq in He. rewrite He. simpl.
  eexists. eexists. split; [reflexivity |]. simpl. repeat split.
Qed.

Lemma games_total_per_move_witness :
  exists ti' stop,
    time_stop_conditions 30 0
      (mk_time_info TT_TOTAL TD_GAMES 1000 0 0 0 0 0 0)
      (board19 0 10) 10 40
    = Ok (ti', stop) /\
    games ti' = 100%Z /\
    desired stop = playouts 100 /\
    worst stop = playouts 100.
Proof.
  destruct (games_total_per_move 30 0
              (mk_time_info TT_TOTAL TD_GAMES 1000 0 0 0 0 0 0)
              (board19 0 10) 10 40 eq_refl eq_refl)
    as (ti' & stop & Hr & Hg & _ & _ & Hdes & Hw).
  - discriminate.
  - exists ti', stop. rewrite Hg in Hdes, Hw.
    repeat split; assumption.
Defined.

(** ** The conversion of a whole-game budget to a per-move one *)

Lemma Qtrunc_nonneg (q : Q) : (0 <= Qnum q)%Z -> Qtrunc q = Qfloor q.
Proof.
  destruct q as [n d]. unfold Qtrunc, Qfloor. simpl. intro Hn.
  apply Z.quot_div_nonneg; lia.
Qed.







(** ** Which faults each step can raise *)

Ltac break_if_in H :=
  unfold bind, c_assert in H;
  repeat match type of H with
         | context [if ?c then _ else _] =>
             let E := fresh "E" in
             destruct c eqn:E; cbv beta iota in H; try discriminate H
         end.





Section Faults.

Variable MIN_MOVES_LEFT : Z.




End Faults.

(** ** Division by the number of moves left *)

Lemma timer_setup_fields (now : Q) (ti : time_info) (net_lag : Q) :
  period (fst (timer_setup now ti net_lag)) = period ti /\
  dim (fst (timer_setup now ti net_lag)) = dim ti /\
  byoyomi_time (fst (timer_setup now ti net_lag)) = byoyomi_time ti /\
  main_time (fst (timer_setup now ti net_lag)) = main_time ti.
Proof.
  unfold timer_setup. destruct (Qeq_bool (timer_start ti) 0); auto.
Qed.

Lemma initial_recommendations_fields (ti : time_info) :
  period (initial_recommendations ti) = period ti /\
  dim (initial_recommendations ti) = dim ti /\
  byoyomi_time (initial_recommendations ti) = byoyomi_time ti /\
  main_time (initial_recommendations ti) = main_time ti /\
  timer_start (initial_recommendations ti) = timer_start ti.
Proof.
  unfold initial_recommendations.
  destruct (Qeq_bool (main_time ti) 0); repeat split.
Qed.





(** ** The bounds of the wall-clock thresholds *)

Lemma clamp_times_ok (ti ti' : time_info) :
  clamp_times ti = Ok ti' ->
  0 <= recommended_time ti' /\ 0 <= max_time ti' /\
  recommended_time ti' <= max_time ti' + 0.001 /\
  period ti' = period ti /\ dim ti' = dim ti /\
  timer_start ti' = timer_start ti.
Proof.
  unfold clamp_times. intro H.
  match type of H with
  | context [c_assert _ ?c] => destruct c eqn:Ea
  end; cbn [bind c_assert] in H; [| discriminate].
  injection H as <-. apply Qle_bool_iff in Ea.
  destruct ti as [p d g m bt bp mx r ts].
  cbn [recommended_time max_time set_recommended_time set_max_time
       period dim timer_start games main_time byoyomi_time byoyomi_periods]
    in *.
  destruct (Qltb r 0) eqn:Er;
    cbn [recommended_time max_time set_recommended_time set_max_time
         period dim timer_start games main_time byoyomi_time byoyomi_periods]
      in *;
    destruct (Qltb mx 0) eqn:Em;
    cbn [recommended_time max_time set_recommended_time set_max_time
         period dim timer_start games main_time byoyomi_time byoyomi_periods]
      in *;
    try apply Qltb_ge in Er; try apply Qltb_ge in Em;
    repeat split; trivial; lra.
Qed.

Lemma time_per_move_ok (now : Q) (ti : time_info) (b : board)
    (ti' : time_info) (net_lag : Q) :
  time_per_move now ti b = Ok (ti', net_lag) ->
  0 <= recommended_time ti' /\ 0 <= max_time ti' /\
  recommended_time ti' <= max_time ti' + 0.001 /\
  period ti' = TT_MOVE /\ dim ti' = TD_WALLTIME.
Proof.
  unfold time_per_move. intro H.
  destruct (time_dimension_eqb (dim ti) TD_WALLTIME) eqn:Ed;
    cbn [bind c_assert] in H; [| discriminate].
  apply time_dimension_eqb_eq in Ed.
  destruct (timer_setup_fields now ti MAX_NET_LAG) as (_ & Hd1 & _).
  destruct (timer_setup now ti MAX_NET_LAG) as [ti1 lag].
  cbn [fst] in Hd1.
  destruct (initial_recommendations_fields ti1) as (_ & Hd2 & _).
  destruct (total_to_move (initial_recommendations ti1) b lag)
    as [ti2 | f2] eqn:Em; cbn [bind] in H; [| discriminate].
  assert (Hd3 : dim ti2 = dim (initial_recommendations ti1)).
  { unfold total_to_move in Em.
    destruct (time_period_eqb (period (initial_recommendations ti1))
                TT_TOTAL); [| congruence].
    unfold main_moves_left in Em.
    break_if_in Em; unfold Qdiv_at in Em; break_if_in Em;
      injection Em as <-; reflexivity. }
  destruct (clamp_times ti2) as [ti3 | f3] eqn:Ec; cbn [bind] in H;
    [| discriminate].
  apply clamp_times_ok in Ec.
  destruct Ec as (H0 & H1 & H2 & _ & Hd4 & _).
  destruct (time_period_eqb (period ti3) TT_MOVE) eqn:Ep;
    cbn [bind c_assert] in H; [| discriminate].
  apply time_period_eqb_eq in Ep. injection H as <- <-.
  repeat split; trivial. congruence.
Qed.




(** ** The check of the phase markers *)




(** ** The parser of budget texts *)














Example time_parse_1200 :
  time_parse ti_blank "1200"
  = (true, set_main_time (atof "1200") (set_dim TD_WALLTIME
             (set_period TT_MOVE ti_blank))) /\
  atof "1200" == 1200.
Proof. split; [reflexivity | vm_compute; reflexivity]. Qed.

Example time_parse_total_1200 :
  period (snd (time_parse ti_blank "_1200")) = TT_TOTAL /\
  main_time (snd (time_parse ti_blank "_1200")) == 1200.
Proof. split; [reflexivity | vm_compute; reflexivity]. Qed.

Example time_parse_games_5000 :
  time_parse ti_blank "=5000"
  = (true, mk_time_info TT_MOVE TD_GAMES 5000 0 0 0 0 0 0).
Proof. reflexivity. Qed.

(** A number followed by other text is read up to that text, and a
    decimal number that starts with its point is refused. *)
Example time_parse_prefix :
  fst (time_parse ti_blank "12abc") = true /\
  main_time (snd (time_parse ti_blank "12abc")) == 12 /\
  spec_budget_text "12abc" = false /\
  fst (time_parse ti_blank ".5") = false.
Proof.
  split; [reflexivity |]. split; [vm_compute; reflexivity |].
  split; reflexivity.
Qed.

(** * Further properties of the code *)

(** ** [time_left] *)

Lemma time_period_neqb (p : time_period) :
  p <> TT_NULL -> time_period_eqb p TT_NULL = false.
Proof. destruct p; simpl; congruence. Qed.

Lemma Qdiv_inject_Z_zero (t s : Z) :
  s <> 0%Z -> Qeq_bool (inject_Z t / inject_Z s) 0 = (t =? 0)%Z.
Proof.
  intro Hs. destruct (Z.eqb_spec t 0) as [-> | Ht].
  - apply Qeq_bool_iff. unfold Qdiv. apply Qmult_0_l.
  - apply Qeq_bool_ne. intro H.
    assert (Hi : ~ inject_Z s == 0).
    { unfold Qeq, inject_Z. simpl. lia. }
    apply (Qmult_inj_r _ _ (inject_Z s) Hi) in H.
    rewrite Qmult_0_l in H. unfold Qdiv in H.
    rewrite <- Qmult_assoc, (Qmult_comm (/ inject_Z s)) in H.
    rewrite Qmult_inv_r, Qmult_1_r in H by exact Hi.
    unfold Qeq, inject_Z in H. simpl in H. lia.
Qed.

(** X1.  [time_left] stops on its assertion exactly when the period is
    [TT_NULL].  Otherwise it returns a record in the wall-clock dimension
    whose period is [TT_TOTAL] when [stones_left] is 0 and [TT_MOVE]
    when it is not, and it never touches the timer. *)
Theorem time_left_returns (ti : time_info) (t stones : Z) :
  (period ti = TT_NULL -> time_left ti t stones = Fault (assert_failed 70)) /\
  (period ti <> TT_NULL ->
   exists ti',
     time_left ti t stones = Ok ti' /\
     dim ti' = TD_WALLTIME /\
     period ti' = (if (stones =? 0)%Z then TT_TOTAL else TT_MOVE) /\
     timer_start ti' = timer_start ti).
Proof.
  unfold time_left. split.
  - intros ->. reflexivity.
  - intro Hp. rewrite (time_period_neqb _ Hp). cbn [negb bind c_assert].
    destruct ((0 <? byoyomi_periods (set_dim TD_WALLTIME ti))%Z
              && (0 <? stones)%Z) eqn:E.
    + apply andb_true_iff in E. destruct E as [_ E]. apply Z.ltb_lt in E.
      destruct (Z.eqb_spec stones 0); [lia |].
      eexists. split; [reflexivity |]. repeat split.
    + destruct (Z.eqb_spec stones 0);
        eexists; (split; [reflexivity |]); repeat split.
Qed.

Lemma time_left_returns_witness :
  time_left ti_blank 60 0 = Fault (assert_failed 70) /\
  exists ti',
    time_left ti_canadian 60 0 = Ok ti' /\
    dim ti' = TD_WALLTIME /\ period ti' = TT_TOTAL /\
    timer_start ti' = timer_start ti_canadian.
Proof.
  split.
  - destruct (time_left_returns ti_blank 60 0) as [H _].
    apply H. reflexivity.
  - destruct (time_left_returns ti_canadian 60 0) as [_ H].
    apply H. discriminate.
Defined.

(** In main time ([stones_left = 0]) [time_left] writes the
    dimension, the period and the main time and nothing else: the byoyomi
    time and periods stay as the settings left them. *)
Lemma time_left_main_time_frame (ti : time_info) (t : Z) :
  period ti <> TT_NULL ->
  time_left ti t 0
  = Ok (mk_time_info TT_TOTAL TD_WALLTIME (games ti) (inject_Z t)
          (byoyomi_time ti) (byoyomi_periods ti) (max_time ti)
          (recommended_time ti) (timer_start ti)).
Proof.
  intro Hp. unfold time_left. rewrite (time_period_neqb _ Hp).
  cbn [negb bind c_assert]. rewrite andb_false_r. reflexivity.
Qed.

Lemma time_left_main_time_frame_witness :
  time_left (time_settings ti_blank 300 30 1 5) 60 0
  = Ok (mk_time_info TT_TOTAL TD_WALLTIME 0 60 (30 / 1) 5 0 0 0).
Proof.
  rewrite (time_left_main_time_frame (time_settings ti_blank 300 30 1 5) 60);
    [reflexivity | discriminate].
Defined.

(** X2.  The reading of [stones_left] as a number of periods: when the
    record has byoyomi periods and [stones_left > 0], [time_left] stores
    [stones_left] as the number of periods left and takes the reported
    time as the time of one period: byoyomi time, [max_time] and
    [recommended_time] all equal it. *)
Theorem time_left_periods (ti : time_info) (t stones : Z) :
  period ti <> TT_NULL ->
  (0 < byoyomi_periods ti)%Z -> (0 < stones)%Z ->
  exists ti',
    time_left ti t stones = Ok ti' /\
    byoyomi_periods ti' = stones /\
    period ti' = TT_MOVE /\
    main_time ti' = 0 /\
    byoyomi_time ti' == inject_Z t /\
    max_time ti' = inject_Z t /\
    recommended_time ti' == inject_Z t.
Proof.
  intros Hp Hb Hs. unfold time_left. rewrite (time_period_neqb _ Hp).
  cbn [negb bind c_assert byoyomi_periods set_dim].
  apply Z.ltb_lt in Hb, Hs. rewrite Hb, Hs. cbn [andb Z.eqb].
  eexists. split; [reflexivity |].
  cbn [byoyomi_periods period main_time byoyomi_time max_time
       recommended_time set_recommended_time set_max_time set_byoyomi_time
       set_main_time set_period set_byoyomi_periods set_dim].
  repeat split; try reflexivity; unfold Qdiv; change (/ inject_Z 1) with 1;
    apply Qmult_1_r.
Qed.

Lemma time_left_periods_witness :
  exists ti',
    time_left (time_settings ti_blank 300 30 1 5) 30 3 = Ok ti' /\
    byoyomi_periods ti' = 3%Z /\
    period ti' = TT_MOVE /\
    main_time ti' = 0 /\
    byoyomi_time ti' == 30 /\
    max_time ti' = 30 /\
    recommended_time ti' == 30.
Proof.
  apply (time_left_periods (time_settings ti_blank 300 30 1 5) 30 3);
    [discriminate | reflexivity | reflexivity].
Defined.

(** X3.  After [time_left] with [stones_left <> 0], [time_in_byoyomi]
    answers yes exactly when the reported time is not 0: with no time
    left the byoyomi time is 0, which [time_in_byoyomi] reads as "there is
    no byoyomi". *)
Theorem time_left_then_in_byoyomi (ti ti' : time_info) (t stones : Z) :
  stones <> 0%Z ->
  time_left ti t stones = Ok ti' ->
  time_in_byoyomi ti' = Ok (negb (t =? 0)%Z).
Proof.
  intros Hs H. unfold time_left in H.
  destruct (negb (time_period_eqb (period ti) TT_NULL));
    cbn [bind c_assert] in H; [| discriminate].
  assert (Hq : forall s : Z, s <> 0%Z ->
             time_in_byoyomi
               (set_recommended_time (inject_Z t / inject_Z s)
                  (set_max_time (inject_Z t)
                     (set_byoyomi_time (inject_Z t / inject_Z s)
                        (set_main_time 0
                           (set_period TT_MOVE
                              (set_dim TD_WALLTIME ti))))))
             = Ok (negb (t =? 0)%Z)).
  { intros s Hs0. unfold time_in_byoyomi.
    cbn [dim period byoyomi_time main_time set_recommended_time
         set_max_time set_byoyomi_time set_main_time set_period set_dim
         time_dimension_eqb time_period_eqb andb bind c_assert].
    rewrite (Qdiv_inject_Z_zero t s Hs0).
    destruct (t =? 0)%Z; reflexivity. }
  destruct ((0 <? byoyomi_periods (set_dim TD_WALLTIME ti))%Z
            && (0 <? stones)%Z).
  - cbn [Z.eqb] in H. injection H as <-.
    exact (Hq 1%Z ltac:(discriminate)).
  - destruct (Z.eqb_spec stones 0); [contradiction |].
    injection H as <-. exact (Hq stones Hs).
Qed.

Lemma time_left_then_in_byoyomi_witness :
  (exists ti', time_left ti_canadian 90 3 = Ok ti' /\
               time_in_byoyomi ti' = Ok true) /\
  (exists ti', time_left ti_canadian 0 3 = Ok ti' /\
               time_in_byoyomi ti' = Ok false).
Proof.
  split; eexists; (split; [reflexivity |]).
  - apply (time_left_then_in_byoyomi ti_canadian _ 90 3);
      [discriminate | reflexivity].
  - apply (time_left_then_in_byoyomi ti_canadian _ 0 3);
      [discriminate | reflexivity].
Defined.

(** ** When [time_stop_conditions] returns *)







Section Returns.

Variable MIN_MOVES_LEFT : Z.
Hypothesis MIN_MOVES_LEFT_pos : (1 <= MIN_MOVES_LEFT)%Z.



End Returns.

Lemma timer_setup_times (now : Q) (ti : time_info) (net_lag : Q) :
  max_time (fst (timer_setup now ti net_lag)) = max_time ti /\
  recommended_time (fst (timer_setup now ti net_lag)) = recommended_time ti /\
  byoyomi_periods (fst (timer_setup now ti net_lag)) = byoyomi_periods ti /\
  timer_start (fst (timer_setup now ti net_lag))
  = (if Qeq_bool (timer_start ti) 0 then now else timer_start ti).
Proof.
  unfold timer_setup. destruct (Qeq_bool (timer_start ti) 0); auto.
Qed.







(** ** What [time_stop_conditions] leaves in the record *)

Lemma total_to_move_frame (ti ti' : time_info) (b : board) (net_lag : Q) :
  total_to_move ti b net_lag = Ok ti' ->
  main_time ti' = main_time ti /\ byoyomi_time ti' = byoyomi_time ti /\
  byoyomi_periods ti' = byoyomi_periods ti /\
  timer_start ti' = timer_start ti.
Proof.
  unfold total_to_move, main_moves_left, Qdiv_at. intro H.
  break_if_in H; injection H as <-; repeat split.
Qed.

Lemma clamp_times_frame (ti ti' : time_info) :
  clamp_times ti = Ok ti' ->
  main_time ti' = main_time ti /\ byoyomi_time ti' = byoyomi_time ti /\
  byoyomi_periods ti' = byoyomi_periods ti.
Proof.
  unfold clamp_times. intro H.
  break_if_in H; injection H as <-; repeat split.
Qed.

Lemma time_per_move_frame (now : Q) (ti : time_info) (b : board)
    (ti' : time_info) (net_lag : Q) :
  time_per_move now ti b = Ok (ti', net_lag) ->
  main_time ti' = main_time ti /\ byoyomi_time ti' = byoyomi_time ti /\
  byoyomi_periods ti' = byoyomi_periods ti /\
  timer_start ti'
  = (if Qeq_bool (timer_start ti) 0 then now else timer_start ti).
Proof.
  unfold time_per_move. intro H.
  destruct (time_dimension_eqb (dim ti) TD_WALLTIME);
    cbn [bind c_assert] in H; [| discriminate].
  destruct (timer_setup_fields now ti MAX_NET_LAG) as (_ & _ & Hb1 & Hm1).
  destruct (timer_setup_times now ti MAX_NET_LAG) as (_ & _ & Hn1 & Ht1).
  destruct (timer_setup now ti MAX_NET_LAG) as [ti1 lag].
  cbn [fst] in *.
  destruct (initial_recommendations_fields ti1)
    as (_ & _ & Hb2 & Hm2 & Ht2).
  assert (Hn2 : byoyomi_periods (initial_recommendations ti1)
                = byoyomi_periods ti1).
  { unfold initial_recommendations.
    destruct (Qeq_bool (main_time ti1) 0); reflexivity. }
  destruct (total_to_move (initial_recommendations ti1) b lag)
    as [ti3 | f] eqn:E3; cbn [bind] in H; [| discriminate].
  apply total_to_move_frame in E3. destruct E3 as (Hm3 & Hb3 & Hn3 & Ht3).
  destruct (clamp_times ti3) as [ti4 | f] eqn:E4; cbn [bind] in H;
    [| discriminate].
  apply clamp_times_ok in E4 as Hc. destruct Hc as (_ & _ & _ & _ & _ & Ht4).
  apply clamp_times_frame in E4. destruct E4 as (Hm4 & Hb4 & Hn4).
  destruct (time_period_eqb (period ti4) TT_MOVE);
    cbn [bind c_assert] in H; [| discriminate].
  injection H as <- _. repeat split; congruence.
Qed.

(** X6.  When [time_stop_conditions] returns, the record has period
    [TT_MOVE] and the dimension it had.  In the games dimension both
    thresholds are the playouts of the record.  In the wall-clock dimension
    both thresholds are deadlines, the main time, the byoyomi time and the
    byoyomi periods are untouched, and the timer is the one that was
    running, or [now] when none was. *)
Theorem time_stop_conditions_frame (MIN_MOVES_LEFT : Z) (now : Q)
    (ti : time_info) (b : board) (fuseki_end yose_start : Z)
    (ti' : time_info) (stop : time_stop) :
  time_stop_conditions MIN_MOVES_LEFT now ti b fuseki_end yose_start
  = Ok (ti', stop) ->
  period ti' = TT_MOVE /\ dim ti' = dim ti /\
  (dim ti = TD_GAMES ->
   desired stop = playouts (games ti') /\
   worst stop = playouts (games ti')) /\
  (dim ti = TD_WALLTIME ->
   (exists d w, desired stop = time d /\ worst stop = time w) /\
   main_time ti' = main_time ti /\
   byoyomi_time ti' = byoyomi_time ti /\
   byoyomi_periods ti' = byoyomi_periods ti /\
   timer_start ti'
   = (if Qeq_bool (timer_start ti) 0 then now else timer_start ti)).
Proof.
  unfold time_stop_conditions. intro H.
  destruct (time_period_eqb (period ti) TT_NULL) eqn:Ep;
    cbn [negb bind c_assert] in H; [discriminate |].
  destruct (dim ti) eqn:Ed; cbn [time_dimension_eqb] in H.
  - unfold games_per_move, Zdiv_at in H.
    destruct (period ti) eqn:Ep'; cbn [time_period_eqb] in *;
      try discriminate.
    + cbn [bind] in H. injection H as <- <-.
      split; [exact Ep' |]. split; [exact Ed |].
      split; [intros _; split; reflexivity | intro Hc; discriminate Hc].
    + destruct (board_estimated_moves_left b =? 0)%Z; cbn [bind] in H;
        [discriminate |].
      injection H as <- <-. cbn [period dim set_games set_period].
      split; [reflexivity |]. split; [exact Ed |].
      split; [intros _; split; reflexivity | intro Hc; discriminate Hc].
  - destruct (time_per_move now ti b) as [[ti1 lag] | f] eqn:E1;
      cbn [bind] in H; [| discriminate].
    destruct (time_limits MIN_MOVES_LEFT ti1 b fuseki_end yose_start)
      as [[d w] | f]; cbn [bind] in H; [| discriminate].
    injection H as <- <-.
    destruct (time_per_move_ok now ti b ti1 lag E1)
      as (_ & _ & _ & Hp1 & Hd1).
    destruct (time_per_move_frame now ti b ti1 lag E1)
      as (Hm & Hb & Hn & Ht).
    split; [exact Hp1 |]. split; [exact Hd1 |]. split; [discriminate |].
    intros _. split; [eexists; eexists; split; reflexivity |].
    repeat split; assumption.
Qed.

Lemma time_stop_conditions_frame_witness :
  exists ti' stop,
    time_stop_conditions 30 100 (time_settings ti_blank 300 30 1 5)
      (board19 20 100) 10 40 = Ok (ti', stop) /\
    period ti' = TT_MOVE /\ dim ti' = TD_WALLTIME /\
    main_time ti' = 300 /\ byoyomi_periods ti' = 5%Z /\
    timer_start ti' = 100.
Proof.
  destruct (time_stop_conditions 30 100 (time_settings ti_blank 300 30 1 5)
              (board19 20 100) 10 40) as [[ti' stop] | f] eqn:E;
    [| vm_compute in E; discriminate].
  exists ti', stop. split; [reflexivity |].
  destruct (time_stop_conditions_frame 30 100
              (time_settings ti_blank 300 30 1 5) (board19 20 100) 10 40
              ti' stop E) as (Hp & Hd & _ & Hw).
  destruct (Hw eq_refl) as (_ & Hm & _ & Hn & Ht).
  repeat split; assumption.
Defined.

(** X7.  In the games dimension the conversion to a budget per move
    happens once: after a call that returned, any further call, on any
    board and at any time, returns the same record and the same
    thresholds. *)
Theorem games_budget_converted_once (MIN_MOVES_LEFT : Z) (now : Q)
    (ti : time_info) (b : board) (fuseki_end yose_start : Z)
    (ti' : time_info) (stop : time_stop) :
  dim ti = TD_GAMES ->
  time_stop_conditions MIN_MOVES_LEFT now ti b fuseki_end yose_start
  = Ok (ti', stop) ->
  forall (MIN' : Z) (now' : Q) (b' : board) (fuseki_end' yose_start' : Z),
    time_stop_conditions MIN' now' ti' b' fuseki_end' yose_start'
    = Ok (ti', stop).
Proof.
  intros Hd H MIN' now' b' fe' ys'.
  unfold time_stop_conditions, games_per_move, Zdiv_at in *.
  rewrite Hd in H. cbn [time_dimension_eqb] in H.
  destruct (period ti) eqn:Ep; cbn [time_period_eqb negb bind c_assert] in H;
    try discriminate.
  - injection H as <- <-. rewrite Ep, Hd. reflexivity.
  - destruct (board_estimated_moves_left b =? 0)%Z; cbn [bind] in H;
      [discriminate |].
    injection H as <- <-.
    cbn [period dim games set_games set_period]. rewrite Hd. reflexivity.
Qed.

Lemma games_budget_converted_once_witness :
  exists ti',
    time_stop_conditions 30 0
      (mk_time_info TT_TOTAL TD_GAMES 1000 0 0 0 0 0 0) (board19 0 10) 10 40
    = Ok (ti', mk_time_stop (playouts 100) (playouts 100)) /\
    time_stop_conditions 30 7 ti' (board19 2 9) 10 40
    = Ok (ti', mk_time_stop (playouts 100) (playouts 100)).
Proof.
  eexists. split; [reflexivity |].
  apply (games_budget_converted_once 30 0
           (mk_time_info TT_TOTAL TD_GAMES 1000 0 0 0 0 0 0)
           (board19 0 10) 10 40); reflexivity.
Defined.

(** X8.  With settings that give no limit ([byoyomi_time > 0] and no
    stones per period) the record is left with period [TT_NULL], on which
    both [time_left] and [time_stop_conditions] stop on their first
    assertion. *)
Theorem no_limit_settings_abort (MIN_MOVES_LEFT : Z) (now : Q)
    (ti : time_info) (mt bt bp t stones : Z) (b : board)
    (fuseki_end yose_start : Z) :
  (0 < bt)%Z ->
  time_left (time_settings ti mt bt 0 bp) t stones
  = Fault (assert_failed 70) /\
  time_stop_conditions MIN_MOVES_LEFT now (time_settings ti mt bt 0 bp) b
    fuseki_end yose_start
  = Fault (assert_failed 144).
Proof.
  intro Hbt. apply Z.ltb_lt in Hbt.
  unfold time_settings. rewrite Hbt. cbn [Z.eqb andb].
  split; reflexivity.
Qed.

Lemma no_limit_settings_abort_witness :
  time_left (time_settings ti_blank 0 30 0 5) 25 1
  = Fault (assert_failed 70) /\
  time_stop_conditions 30 100 (time_settings ti_blank 0 30 0 5)
    (board19 0 100) 10 40
  = Fault (assert_failed 144).
Proof.
  apply (no_limit_settings_abort 30 100 ti_blank 0 30 5 25 1
           (board19 0 100) 10 40).
  lia.
Defined.

(** ** The two durations *)

(** X9.  In byoyomi the worst duration is 1.1 times the recommended time,
    capped by [max_time], and the desired duration is 0.9 times the
    recommended time, capped by the worst; the phase markers and the
    board play no part.  For a positive recommended time the two average
    to it exactly when the cap is not reached, that is when 1.1 times the
    recommended time fits in [max_time]. *)
Theorem byoyomi_limits (MIN_MOVES_LEFT : Z) (ti : time_info) (b : board)
    (fuseki_end yose_start : Z) :
  time_in_byoyomi ti = Ok true ->
  exists d w,
    time_limits MIN_MOVES_LEFT ti b fuseki_end yose_start = Ok (d, w) /\
    w == Qmin (recommended_time ti * 1.1) (max_time ti) /\
    d == Qmin (recommended_time ti * 0.9) w /\
    (0 < recommended_time ti ->
     (d + w == 2 * recommended_time ti <->
      recommended_time ti * 1.1 <= max_time ti)).
Proof.
  intro Hb. unfold time_limits. rewrite Hb. cbn [bind].
  unfold MAX_BYOYOMI_TIME_EXTENSION.
  set (r := recommended_time ti). set (m := max_time ti).
  eexists. eexists. split; [reflexivity |].
  destruct (Qltb m (r * 1.1)) eqn:Ew;
    [apply Qltb_lt in Ew | apply Qltb_ge in Ew];
    match goal with
    | |- context [Qltb ?a ?c] =>
        destruct (Qltb a c) eqn:Ed;
        [apply Qltb_lt in Ed | apply Qltb_ge in Ed]
    end;
    (split; [first [rewrite Q.min_l by lra; lra
                   | rewrite Q.min_r by lra; lra] |]);
    (split; [first [rewrite Q.min_l by lra; lra
                   | rewrite Q.min_r by lra; lra] |]);
    intro Hr; split; intro; lra.
Qed.

Lemma byoyomi_limits_witness :
  exists d w,
    time_limits 30 ti_overtime (board19 20 100) 40 10 = Ok (d, w) /\
    w == Qmin (30 * 1.1) 30 /\
    d == Qmin (30 * 0.9) w.
Proof.
  destruct (byoyomi_limits 30 ti_overtime (board19 20 100) 40 10 eq_refl)
    as (d & w & E & Hw & Hd & _).
  exists d, w. repeat split; assumption.
Defined.




(** ** From the budget text to the thresholds *)



(** ** The random generator *)

Section RandomFacts.

Variable ulong_bits : Z.
Hypothesis ulong_bits_32 : (32 <= ulong_bits)%Z.

Local Open Scope Z_scope.

Lemma ulong_small (x : Z) : 0 <= x < 2 ^ 32 -> ulong ulong_bits x = x.
Proof.
  intro H. unfold ulong. apply Z.mod_small.
  assert (2 ^ 32 <= 2 ^ ulong_bits) by (apply Z.pow_le_mono_r; lia).
  lia.
Qed.

Lemma div_mod_bounds (x d q : Z) :
  0 < d -> 0 <= x < d * (q + 1) ->
  x = d * (x / d) + x mod d /\ 0 <= x mod d < d /\ 0 <= x / d <= q.
Proof.
  intros Hd Hx. split; [apply Z.div_mod; lia |].
  split; [apply Z.mod_pos_bound; lia |].
  split; [apply Z.div_pos; lia |].
  assert (x / d < q + 1) by (apply Z.div_lt_upper_bound; lia). lia.
Qed.

(** The steps of [pmseed_next] without the bit operations: no product or
    sum wraps around when the seed is at most 2^31. *)
Lemma pmseed_next_arith (s : Z) :
  0 <= s <= 2 ^ 31 ->
  exists a b h0 h1 l0 l1,
    s = 65536 * a + b /\ 0 <= b < 65536 /\ 0 <= a <= 32768 /\
    16807 * a = 32768 * h1 + h0 /\ 0 <= h0 < 32768 /\ 0 <= h1 <= 16807 /\
    16807 * b + 65536 * h0 + h1 = 2147483648 * l1 + l0 /\
    0 <= l0 < 2147483648 /\ 0 <= l1 <= 1 /\
    pmseed_next ulong_bits s = l0 + l1.
Proof.
  intro Hs. unfold pmseed_next.
  change 0xffff with (Z.ones 16). change 0x7fff with (Z.ones 15).
  change 0x7fffffff with (Z.ones 31).
  rewrite !Z.land_ones, !Z.shiftr_div_pow2, !Z.shiftl_mul_pow2 by lia.
  change (2 ^ 16) with 65536. change (2 ^ 15) with 32768.
  change (2 ^ 31) with 2147483648 in *.
  destruct (div_mod_bounds s 65536 32768) as (Es & Hb & Ha); [lia | lia |].
  remember (s / 65536) as a eqn:Ea. remember (s mod 65536) as b eqn:Eb.
  rewrite (ulong_small (16807 * b)) by lia.
  rewrite (ulong_small (16807 * a)) by lia.
  destruct (div_mod_bounds (16807 * a) 32768 16807) as (Eh & Hh0 & Hh1);
    [lia | lia |].
  remember ((16807 * a) / 32768) as h1 eqn:Eh1.
  remember ((16807 * a) mod 32768) as h0 eqn:Eh0.
  rewrite (ulong_small (h0 * 65536)) by lia.
  rewrite (ulong_small (16807 * b + h0 * 65536)) by lia.
  rewrite (ulong_small (16807 * b + h0 * 65536 + h1)) by lia.
  destruct (div_mod_bounds (16807 * b + h0 * 65536 + h1) 2147483648 1)
    as (El & Hl0 & Hl1); [lia | lia |].
  remember ((16807 * b + h0 * 65536 + h1) / 2147483648) as l1 eqn:El1.
  remember ((16807 * b + h0 * 65536 + h1) mod 2147483648) as l0 eqn:El0.
  rewrite (ulong_small (l0 + l1)) by lia.
  exists a, b, h0, h1, l0, l1. repeat split; lia.
Qed.

Lemma pmseed_next_park_miller (s : Z) :
  0 <= s <= 2 ^ 31 ->
  0 <= pmseed_next ulong_bits s <= 2 ^ 31 /\
  pmseed_next ulong_bits s mod pm_modulus = (16807 * s) mod pm_modulus.
Proof.
  intro Hs.
  destruct (pmseed_next_arith s Hs)
    as (a & b & h0 & h1 & l0 & l1 & Es & Hb & Ha & Eh & Hh0 & Hh1 & El
        & Hl0 & Hl1 & ->).
  change (2 ^ 31) with 2147483648 in *.
  split; [lia |].
  unfold pm_modulus.
  replace (16807 * s) with (l0 + l1 + (h1 + l1) * 2147483647) by lia.
  now rewrite Z.mod_add by lia.
Qed.

(** X12.  [fast_random] is the Park-Miller generator: from a seed of at
    most 2^31, after [n] calls [pmseed] is still at most 2^31 and is
    congruent to [16807^n] times the seed modulo 2^31 - 1, whatever the
    width of [unsigned long] from 32 bits on. *)
Theorem pmseed_after_park_miller (n : nat) (s : Z) :
  0 <= s <= 2 ^ 31 ->
  0 <= pmseed_after ulong_bits n s <= 2 ^ 31 /\
  pmseed_after ulong_bits n s mod pm_modulus
  = (16807 ^ Z.of_nat n * s) mod pm_modulus.
Proof.
  revert s. induction n as [| n IH]; intros s Hs.
  - cbn [pmseed_after]. split; [exact Hs |].
    change (16807 ^ Z.of_nat 0) with 1. now rewrite Z.mul_1_l.
  - cbn [pmseed_after].
    destruct (pmseed_next_park_miller s Hs) as [Hb Hc].
    destruct (IH _ Hb) as [Hb' Hc']. split; [exact Hb' |].
    rewrite Hc'. rewrite <- Zmult_mod_idemp_r, Hc, Zmult_mod_idemp_r.
    f_equal. rewrite Nat2Z.inj_succ, Z.pow_succ_r by lia. ring.
Qed.

(** X13.  The generator does not degenerate: a seed of at most 2^31 that
    is not a multiple of 2^31 - 1 never leads to a [pmseed] that is one; in
    particular [pmseed] never becomes 0. *)
Theorem pmseed_never_zero (n : nat) (s : Z) :
  0 <= s <= 2 ^ 31 ->
  s mod pm_modulus <> 0 ->
  pmseed_after ulong_bits n s mod pm_modulus <> 0 /\
  pmseed_after ulong_bits n s <> 0.
Proof.
  revert s. induction n as [| n IH]; intros s Hs Hnz.
  - cbn [pmseed_after]. split; [exact Hnz |]. intros ->. now apply Hnz.
  - cbn [pmseed_after].
    destruct (pmseed_next_park_miller s Hs) as [Hb Hc].
    apply (IH _ Hb). rewrite Hc. intro H0.
    apply Z.mod_divide in H0; [| unfold pm_modulus; lia].
    apply Z.gauss in H0; [| reflexivity].
    apply Hnz. apply Z.mod_divide; [unfold pm_modulus; lia | exact H0].
Qed.

(** X14.  [fast_random] returns a number below [max]: for [max > 0] with
    [65535 * max] representable in an [unsigned long] (every [unsigned
    int] when [unsigned long] has 64 bits) the result is at least 0 and
    less than [max], from any seed; and it is 0 when [max] is 0. *)
Theorem fast_random_range (pmseed max : Z) :
  0 <= max -> 65535 * max < 2 ^ ulong_bits ->
  0 <= fst (fast_random ulong_bits pmseed max) /\
  (0 < max -> fst (fast_random ulong_bits pmseed max) < max) /\
  (max = 0 -> fst (fast_random ulong_bits pmseed max) = 0).
Proof.
  clear ulong_bits_32.
  intros Hmax Hfit. unfold fast_random. cbn [fst].
  change 0xffff with (Z.ones 16).
  rewrite Z.land_ones, Z.shiftr_div_pow2 by lia.
  change (2 ^ 16) with 65536.
  set (x := pmseed_next ulong_bits pmseed mod 65536).
  assert (Hx : 0 <= x < 65536) by (apply Z.mod_pos_bound; lia).
  clearbody x.
  assert (E : ulong ulong_bits (x * max) = x * max).
  { unfold ulong. apply Z.mod_small. nia. }
  rewrite E. split; [apply Z.div_pos; nia |]. split.
  - intro Hpos. apply Z.div_lt_upper_bound; nia.
  - intros ->. now rewrite Z.mul_0_r.
Qed.

End RandomFacts.

Lemma pmseed_after_park_miller_witness :
  (0 <= pmseed_after 64 3 1 <= 2 ^ 31)%Z /\
  (pmseed_after 64 3 1 mod pm_modulus
   = (16807 ^ Z.of_nat 3 * 1) mod pm_modulus)%Z /\
  pmseed_after 64 3 1 = 1622650073%Z.
Proof.
  destruct (pmseed_after_park_miller 64 ltac:(lia) 3 1 ltac:(lia))
    as [Hb Hc].
  split; [exact Hb |]. split; [exact Hc | reflexivity].
Defined.

Lemma pmseed_never_zero_witness :
  (pmseed_after 64 100 pmseed_initial mod pm_modulus <> 0)%Z /\
  pmseed_after 64 100 pmseed_initial <> 0%Z.
Proof.
  apply (pmseed_never_zero 64 ltac:(lia) 100 pmseed_initial).
  - unfold pmseed_initial. lia.
  - vm_compute. discriminate.
Defined.

Lemma fast_random_range_witness :
  (0 <= fst (fast_random 64 pmseed_initial 100))%Z /\
  (fst (fast_random 64 pmseed_initial 100) < 100)%Z.
Proof.
  destruct (fast_random_range 64 pmseed_initial 100) as (H0 & H1 & _).
  - lia.
  - vm_compute. reflexivity.
  - split; [exact H0 | apply H1; lia].
Defined.

(** ** The clock *)

Lemma Qtrunc_inject_Z (n : Z) : Qtrunc (inject_Z n) = n.
Proof. unfold Qtrunc, inject_Z. simpl. apply Z.quot_1_r. Qed.

Lemma Qtrunc_opp (x : Q) : Qtrunc (- x) = (- Qtrunc x)%Z.
Proof.
  destruct x as [n d]. unfold Qtrunc, Qopp. simpl.
  apply Z.quot_opp_l. discriminate.
Qed.

Lemma Qtrunc_bounds_nonneg (x : Q) :
  0 <= x ->
  (0 <= Qtrunc x)%Z /\ inject_Z (Qtrunc x) <= x /\
  x < inject_Z (Qtrunc x) + 1.
Proof.
  intro Hx.
  assert (Hn : (0 <= Qnum x)%Z).
  { unfold Qle in Hx. simpl in Hx. lia. }
  rewrite (Qtrunc_nonneg x Hn).
  split.
  - unfold Qfloor. destruct x as [n d]. simpl in *.
    apply Z.div_pos; lia.
  - split; [apply Qfloor_le |].
    pose proof (Qlt_floor x) as H. rewrite inject_Z_plus in H. exact H.
Qed.

Lemma Qtrunc_bounds_neg (x : Q) :
  x <= 0 ->
  (Qtrunc x <= 0)%Z /\ x <= inject_Z (Qtrunc x) /\
  inject_Z (Qtrunc x) < x + 1.
Proof.
  intro Hx.
  assert (Hx' : 0 <= - x) by lra.
  destruct (Qtrunc_bounds_nonneg (- x) Hx') as (H0 & H1 & H2).
  rewrite Qtrunc_opp in H0, H1, H2. rewrite inject_Z_opp in H1, H2.
  split; [lia |]. split; lra.
Qed.


(** X15.  [time_sleep] does not sleep on a negative interval: either
    [nanosleep] refuses the time it is given, which is the case for every
    interval of at most minus one nanosecond, or it is asked to sleep for
    0 seconds and 0 nanoseconds. *)
Theorem time_sleep_negative (interval : Q) :
  interval < 0 ->
  (time_sleep interval = None \/
   time_sleep interval = Some (mk_timespec 0 0)) /\
  (interval <= - (1 # 1000000000) -> time_sleep interval = None).
Proof.
  intro Hx. unfold time_sleep, modf, nanosleep_accepts.
  rewrite Qtrunc_inject_Z. cbn [tv_sec tv_nsec].
  destruct (Qtrunc_bounds_neg interval) as (Hs0 & Hs1 & Hs2); [lra |].
  set (sec := Qtrunc interval) in *.
  assert (Hf : (interval - inject_Z sec) * 1000000000.0 <= 0) by nra.
  destruct (Qtrunc_bounds_neg _ Hf) as (Hn0 & Hn1 & Hn2).
  set (nsec := Qtrunc ((interval - inject_Z sec) * 1000000000.0)) in *.
  clearbody nsec. clearbody sec.
  destruct (Z.leb_spec 0 sec) as [Hsec | Hsec]; cbn [andb].
  - assert (sec = 0%Z) by lia. subst sec.
    change (inject_Z 0) with 0 in *.
    destruct (Z.leb_spec 0 nsec) as [Hnsec | Hnsec]; cbn [andb].
    + assert (nsec = 0%Z) by lia. subst nsec.
      change (inject_Z 0) with 0 in *. cbn. split.
      * right. reflexivity.
      * intro Hle. exfalso. lra.
    + split; [left; reflexivity | reflexivity].
  - split; [left; reflexivity | reflexivity].
Qed.

Lemma time_sleep_negative_witness :
  time_sleep (- (1 # 2)) = None.
Proof.
  destruct (time_sleep_negative (- (1 # 2))) as [_ H].
  - reflexivity.
  - apply H. vm_compute. discriminate.
Defined.



(** ** The lag kept in reserve *)





(** ** From the controller's report to the thresholds *)


